(** * BulkMCUploader: the concurrent programming orchestrator of [app_v3.py]

    A shallow embedding of the parts of [MCUProgrammerApp] that discover
    ports, admit them per USB hub, dispatch programming jobs to the thread
    pool, retry a failing job and aggregate the results.

    Conventions of the embedding.
    - Python [dict]s with string keys are [gmap string _]; Python [set]s of
      port names are [gset string].  [pending_futures] is kept as an
      insertion-ordered association list, because the loop iterates over
      [pending_futures.items()] and the order decides the order of the
      result queue.
    - Python integers are [Z].  Times ([time.time()], [time.sleep],
      durations, the delays stored in the settings) are counted in
      milliseconds, also as [Z].
    - A Python truth value stored in the settings is the integer it is
      ([False] is [0], [True] is [1]).
    - The formatted log lines are kept as structured [log_line]s, one
      constructor per [log_message] call of the source. *)

From stdpp Require Import gmap strings list.
From Stdlib Require Import ZArith Lia.

Open Scope Z_scope.

(** ** Settings: [self.saved_data] *)

(** [self.saved_data.get(key, dflt)] *)
Definition settings_get (saved_data : gmap string Z) (key : string) (dflt : Z) : Z :=
  default dflt (saved_data !! key).

(** [self.default_settings] (the two string-valued entries, the programming
    and execution modes, live in [mode_var]; there is no ["baud_rate"]
    entry in the source's defaults). *)
Definition default_settings : gmap string Z :=
  list_to_map
    [ ("programming_timeout", 60000); ("max_retries", 3);
      ("verify_programming", 1); ("verbose_output", 0);
      ("max_parallel_jobs", 4); ("port_scan_interval", 5000);
      ("auto_detect_devices", 1); ("log_detailed_output", 0);
      ("max_devices_per_hub", 2); ("hub_programming_delay", 2000);
      ("auto_install_cores", 1); ("update_index_on_start", 1) ]%string.

(** [dict.update]: the entries of [new] win. *)
Definition dict_update (new d : gmap string Z) : gmap string Z := new ∪ d.

(** ** Results, exceptions and log messages *)

Record ProgrammingResult := mkProgrammingResult {
  port : string;
  success : bool;
  message : string;
  duration : Z;
  board_type : string;
  fqbn : string;
  timestamp : Z
}.

Inductive exn :=
| KeyError (key : string)
| RuntimeError (text : string)
| AttributeError (text : string)
| ToolException (text : string).

(** [str(e)] *)
Definition exn_str (e : exn) : string :=
  match e with
  | KeyError key => "'" +:+ key +:+ "'"
  | RuntimeError text | AttributeError text | ToolException text => text
  end.

Inductive log_line :=
| MsgRetry (attempt max_retries : Z) (port hub_id : string)
| MsgAttemptFailed (port : string) (attempt : Z) (message : string)
| MsgAttemptException (port : string) (attempt : Z) (error_msg : string)
| MsgMonitoring
| MsgHubSupport
| MsgDisconnected (port : string)
| MsgNewDevice (port hub_id : string)
| MsgDelaying (port hub_id : string)
| MsgFutureError (port text : string)
| MsgAutoDetectionError (text : string)
| MsgSinglePort (port : string)
| MsgSinglePortError (text : string)
| MsgEnsuringCore
| MsgCoreFailed (core_message : string)
| MsgCoreReady (core_message : string)
| MsgManagerError (text : string)
| MsgProgrammed (port : string) (duration : Z) (fqbn : string)
| MsgFailed (port message : string) (duration : Z)
| MsgDetails (message : string)
| MsgNestedHubs (max_hub_level : Z)
| MsgReducingParallel
| MsgRefreshed (device_count : Z)
| MsgSessionStarted
| MsgStoppedByUser.

Inductive log_level := INFO | WARNING | ERROR | SUCCESS.

(** ** The worker side: one programming job

    A job runs on a pool thread.  What it does to the outside is recorded in
    a trace; the external flashing tool ([self.programmer.program_board]) is
    a script giving, for the n-th call, what the call returns or raises and
    how long it took. *)

Inductive tool_outcome :=
| Returns (success : bool) (message : string)
| Raises (text : string).

Record tool_reply := mkReply { outcome : tool_outcome; took : Z }.

Inductive job_event :=
| Sleep (ms : Z)
| Log (level : log_level) (msg : log_line)
| ProgramBoard (firmware_path fqbn port : string)
| SerialMonitor (port : string) (baud_rate : Z).

Record job_state := mkJobState {
  now : Z;
  calls : nat;
  trace : list job_event
}.

(** State and exceptions of a job, threaded as in the Python code. *)
Definition job (A : Type) : Type := job_state → job_state * (exn + A).

#[global] Instance job_ret : MRet job := λ A a s, (s, inr a).
#[global] Instance job_bind : MBind job := λ A B k m s,
  match m s with
  | (s', inr a) => k a s'
  | (s', inl e) => (s', inl e)
  end.

Definition raise {A} (e : exn) : job A := λ s, (s, inl e).

(** [try: body except Exception as e: handler e] *)
Definition try_except {A} (body : job A) (handler : exn → job A) : job A := λ s,
  match body s with
  | (s', inl e) => handler e s'
  | r => r
  end.

Definition emit (ev : job_event) : job unit := λ s,
  (mkJobState (now s) (calls s) (trace s ++ [ev]), inr tt).

(** [time.time()] *)
Definition time_time : job Z := λ s, (s, inr (now s)).

(** [time.sleep(ms)] *)
Definition time_sleep (ms : Z) : job unit := λ s,
  (mkJobState (now s + ms) (calls s) (trace s ++ [Sleep ms]), inr tt).

(** [self.log_message(msg, level)] from a worker thread *)
Definition job_log (msg : log_line) (level : log_level) : job unit :=
  emit (Log level msg).

(** [self.programmer.program_board(firmware_path, fqbn, port)] *)
Definition program_board (tool : nat → tool_reply) (firmware_path fqbn port : string)
  : job (bool * string) := λ s,
  let r := tool (calls s) in
  let s' := mkJobState (now s + took r) (S (calls s))
                       (trace s ++ [ProgramBoard firmware_path fqbn port]) in
  match outcome r with
  | Returns ok msg => (s', inr (ok, msg))
  | Raises text => (s', inl (ToolException text))
  end.

(** [self.saved_data[key]] *)
Definition saved_data_item (saved_data : gmap string Z) (key : string) : job Z :=
  match saved_data !! key with
  | Some v => mret v
  | None => raise (KeyError key)
  end.

(** [ProgrammingResult.__init__]: stores the fields, stamps the time and
    starts the serial monitor thread. *)
Definition new_ProgrammingResult (port : string) (success : bool) (message : string)
    (duration : Z) (board_type fqbn : string) (baud_rate : Z) : job ProgrammingResult :=
  stamp ← time_time;
  emit (SerialMonitor port baud_rate);;
  mret (mkProgrammingResult port success message duration board_type fqbn stamp).

(** [range(n)] *)
Definition range (n : Z) : list Z := Z.of_nat <$> seq 0 (Z.to_nat n).

(** ** The application object: the fields of [MCUProgrammerApp] the
    orchestrator reads and writes *)

Record Stats := mkStats {
  total_programmed : Z;
  successful : Z;
  failed : Z;
  start_time : option Z;
  session_results : list ProgrammingResult
}.

(** A future of the pool: the call it stands for and, once the worker has
    finished, what the call returned or raised. *)
Record Future := mkFuture {
  fut_fqbn : string;
  fut_port : string;
  fut_hub_id : string;
  fut_outcome : option (exn + ProgrammingResult)
}.

(** [ThreadPoolExecutor(max_workers)]; a future is named by its position in
    [futures], the order of submission. *)
Record ThreadPoolExecutor := mkExecutor {
  max_workers : Z;
  futures : list Future;
  shut_down : bool
}.

Record MCUProgrammerApp := mkApp {
  saved_data : gmap string Z;
  supported_boards : gmap string (string * string);
  board_var : string;
  file_var : string;
  port_var : string;
  mode_var : string;
  stop_programming : bool;
  programming_active : bool;
  executor : option ThreadPoolExecutor;
  result_queue : list ProgrammingResult;
  stats : Stats;
  terminal : list (log_level * log_line)
}.

Definition set_saved_data (v : gmap string Z) (self : MCUProgrammerApp) :=
  mkApp v (supported_boards self) (board_var self) (file_var self) (port_var self) (mode_var self)
        (stop_programming self) (programming_active self) (executor self)
        (result_queue self) (stats self) (terminal self).

Definition set_stop_programming (v : bool) (self : MCUProgrammerApp) :=
  mkApp (saved_data self) (supported_boards self) (board_var self) (file_var self) (port_var self) (mode_var self)
        v (programming_active self) (executor self)
        (result_queue self) (stats self) (terminal self).

Definition set_programming_active (v : bool) (self : MCUProgrammerApp) :=
  mkApp (saved_data self) (supported_boards self) (board_var self) (file_var self) (port_var self) (mode_var self)
        (stop_programming self) v (executor self)
        (result_queue self) (stats self) (terminal self).

Definition set_executor (v : option ThreadPoolExecutor) (self : MCUProgrammerApp) :=
  mkApp (saved_data self) (supported_boards self) (board_var self) (file_var self) (port_var self) (mode_var self)
        (stop_programming self) (programming_active self) v
        (result_queue self) (stats self) (terminal self).

Definition set_result_queue (v : list ProgrammingResult) (self : MCUProgrammerApp) :=
  mkApp (saved_data self) (supported_boards self) (board_var self) (file_var self) (port_var self) (mode_var self)
        (stop_programming self) (programming_active self) (executor self)
        v (stats self) (terminal self).

Definition set_stats (v : Stats) (self : MCUProgrammerApp) :=
  mkApp (saved_data self) (supported_boards self) (board_var self) (file_var self) (port_var self) (mode_var self)
        (stop_programming self) (programming_active self) (executor self)
        (result_queue self) v (terminal self).

Definition set_terminal (v : list (log_level * log_line)) (self : MCUProgrammerApp) :=
  mkApp (saved_data self) (supported_boards self) (board_var self) (file_var self) (port_var self) (mode_var self)
        (stop_programming self) (programming_active self) (executor self)
        (result_queue self) (stats self) v.

(** [self.log_message(msg, level)] *)
Definition log_message (msg : log_line) (level : log_level) (self : MCUProgrammerApp) :=
  set_terminal (terminal self ++ [(level, msg)]) self.

(** [self.result_queue.put(result)] *)
Definition result_queue_put (result : ProgrammingResult) (self : MCUProgrammerApp) :=
  set_result_queue (result_queue self ++ [result]) self.

(** ** [program_device_with_retry] *)

Section Worker.
Context (self : MCUProgrammerApp) (tool : nat → tool_reply).

(** The body of [for attempt in range(max_retries + 1)]: [Some result] when
    the body returns [result] from the function, [None] when the loop goes
    on to the next attempt. *)
Definition attempt_body (fqbn port hub_id firmware_path board_type : string)
    (max_retries start_time attempt : Z) : job (option ProgrammingResult) :=
  try_except
    ((if bool_decide (0 < attempt) then
        job_log (MsgRetry attempt max_retries port hub_id) WARNING;;
        time_sleep (if bool_decide (hub_id ≠ "direct"%string) then 2000 else 1000)
      else mret tt);;
     '(success, message) ← program_board tool firmware_path fqbn port;
     t ← time_time;
     let duration := t - start_time in
     baud_rate ← saved_data_item (saved_data self) "baud_rate";
     result ← new_ProgrammingResult port success message duration board_type fqbn baud_rate;
     if (success : bool) then mret (Some result)
     else if bool_decide (attempt = max_retries) then mret (Some result)
     else
       job_log (MsgAttemptFailed port (attempt + 1) message) WARNING;;
       mret None)
    (λ e,
      t ← time_time;
      let duration := t - start_time in
      let error_msg := ("Programming exception: " +:+ exn_str e)%string in
      if bool_decide (attempt = max_retries) then
        baud_rate ← saved_data_item (saved_data self) "baud_rate";
        result ← new_ProgrammingResult port false error_msg duration board_type fqbn baud_rate;
        mret (Some result)
      else
        job_log (MsgAttemptException port (attempt + 1) error_msg) WARNING;;
        mret None).

(** The [for] loop and the fallback after it. *)
Fixpoint for_attempts (fqbn port hub_id firmware_path board_type : string)
    (max_retries start_time : Z) (attempts : list Z) : job ProgrammingResult :=
  match attempts with
  | [] =>
      t ← time_time;
      let duration := t - start_time in
      baud_rate ← saved_data_item (saved_data self) "baud_rate";
      new_ProgrammingResult port false "Max retries exceeded" duration board_type fqbn baud_rate
  | attempt :: rest =>
      r ← attempt_body fqbn port hub_id firmware_path board_type max_retries start_time attempt;
      match r with
      | Some result => mret result
      | None => for_attempts fqbn port hub_id firmware_path board_type max_retries start_time rest
      end
  end.

Definition program_device_with_retry (fqbn port hub_id : string) : job ProgrammingResult :=
  let firmware_path := file_var self in
  let board_type := board_var self in
  let max_retries := settings_get (saved_data self) "max_retries" 3 in
  start_time ← time_time;
  (if bool_decide (hub_id ≠ "direct"%string) then
     time_sleep (settings_get (saved_data self) "hub_programming_delay" 500)
   else mret tt);;
  for_attempts fqbn port hub_id firmware_path board_type max_retries start_time
               (range (max_retries + 1)).
End Worker.

(** A worker runs the job from a fresh trace at clock reading [t0]. *)
Definition run_job (self : MCUProgrammerApp) (tool : nat → tool_reply) (t0 : Z)
    (fqbn port hub_id : string) : job_state * (exn + ProgrammingResult) :=
  program_device_with_retry self tool fqbn port hub_id (mkJobState t0 0 []).

(** The calls of the flashing tool a trace records, in order, and their
    number. *)
Definition tool_calls (tr : list job_event) : list (string * string * string) :=
  omap (λ ev, match ev with
              | ProgramBoard firmware_path fqbn port => Some (firmware_path, fqbn, port)
              | _ => None
              end) tr.

Definition invocations (tr : list job_event) : nat := length (tool_calls tr).

(** The sleeps of a trace, in order. *)
Definition sleeps (tr : list job_event) : list Z :=
  omap (λ ev, match ev with Sleep ms => Some ms | _ => None end) tr.

(** The log lines of a trace, in order. *)
Definition logged (tr : list job_event) : list (log_level * log_line) :=
  omap (λ ev, match ev with Log level msg => Some (level, msg) | _ => None end) tr.

(** ** The main-thread side *)

(** One entry of [get_ports_with_hub_info()]; the serial enumerator and the
    parsing of its hardware identifiers are the environment.  ["hub_level"]
    is a key the source sets only when it finds a USB location. *)
Record PortInfo := mkPortInfo {
  info_port : string;
  info_hub_id : option string;
  info_hub_level : option Z
}.

(** The local variables of [auto_detect_and_program]. *)
Record Locals := mkLocals {
  known_ports : gset string;
  pending_futures : list (string * nat);
  hub_load_balancing : gmap string (gset string);
  programmed_ports : gset string
}.

(** [port in pending_futures] *)
Definition dict_in (port : string) (d : list (string * nat)) : bool :=
  bool_decide (port ∈ d.*1).

(** [del pending_futures[port]] (for a key that is present) *)
Definition dict_del (port : string) (d : list (string * nat)) : list (string * nat) :=
  filter (λ kv, kv.1 ≠ port) d.

(** [pending_futures[port] = future]: a present key keeps its place, a new
    one goes last. *)
Definition dict_set (port : string) (future : nat) (d : list (string * nat))
  : list (string * nat) :=
  if dict_in port d
  then (λ kv, if decide (kv.1 = port) then (port, future) else kv) <$> d
  else d ++ [(port, future)].

(** [check_hub_capacity] *)
Definition check_hub_capacity (self : MCUProgrammerApp) (hub_id : string)
    (hub_load_balancing : gmap string (gset string)) : bool :=
  let max_devices_per_hub := settings_get (saved_data self) "max_devices_per_hub" 2 in
  if decide (hub_id = "direct"%string) then true
  else
    let current_load := Z.of_nat (size (default ∅ (hub_load_balancing !! hub_id))) in
    bool_decide (current_load < max_devices_per_hub).

(** The hub load update shared by the two clean-up loops:
    [for hub_id in hub_load_balancing: if port in hub_load_balancing[hub_id]:
     hub_load_balancing[hub_id].remove(port)] *)
Definition release_port (port : string) (hub_load_balancing : gmap string (gset string))
  : gmap string (gset string) :=
  (λ ports : gset string, if decide (port ∈ ports) then ports ∖ {[port]} else ports)
    <$> hub_load_balancing.

(** [self.executor.submit(self.program_device_with_retry, fqbn, port, hub_id)] *)
Definition executor_submit (fqbn port hub_id : string) (self : MCUProgrammerApp)
  : exn + (MCUProgrammerApp * nat) :=
  match executor self with
  | None => inl (AttributeError "'NoneType' object has no attribute 'submit'")
  | Some ex =>
      if shut_down ex
      then inl (RuntimeError "cannot schedule new futures after shutdown")
      else
        let future := mkFuture fqbn port hub_id None in
        inr (set_executor
               (Some (mkExecutor (max_workers ex) (futures ex ++ [future]) (shut_down ex)))
               self,
             length (futures ex))
  end.

(** [self.executor.shutdown(...)] *)
Definition executor_shutdown (self : MCUProgrammerApp) : MCUProgrammerApp :=
  match executor self with
  | None => self
  | Some ex => set_executor (Some (mkExecutor (max_workers ex) (futures ex) true)) self
  end.

(** The futures the pool holds. *)
Definition pool_futures (self : MCUProgrammerApp) : list Future :=
  match executor self with
  | None => []
  | Some ex => futures ex
  end.

(** What [future.done()] and [future.result()] see: [None] while the call is
    running, afterwards what it returned or raised. *)
Definition future_outcome (self : MCUProgrammerApp) (future : nat)
  : option (exn + ProgrammingResult) :=
  f ← pool_futures self !! future; fut_outcome f.

(** *** The body of the [while] loop of [auto_detect_and_program] *)

(** Lines 1429-1436: one port of [disconnected_ports]. *)
Definition drop_disconnected (port : string) (st : MCUProgrammerApp * Locals)
  : MCUProgrammerApp * Locals :=
  let '(self, loc) := st in
  let '(self, pending) :=
    if dict_in port (pending_futures loc)
    then (log_message (MsgDisconnected port) WARNING self,
          dict_del port (pending_futures loc))
    else (self, pending_futures loc) in
  (self, mkLocals (known_ports loc) pending
                  (release_port port (hub_load_balancing loc)) (programmed_ports loc)).

(** Lines 1439-1473: one [port_info] of the scan.  The third component is
    the exception that left the loop body, if any. *)
Definition dispatch_port (fqbn : string) (new_ports : gset string) (port_info : PortInfo)
    (st : MCUProgrammerApp * Locals) : MCUProgrammerApp * Locals * option exn :=
  let '(self, loc) := st in
  let port := info_port port_info in
  let hub_id := default "direct"%string (info_hub_id port_info) in
  if bool_decide (mode_var self = "Single"%string) && bool_decide (port ∈ programmed_ports loc)
  then (self, loc, None)
  else if bool_decide (port ∈ new_ports) && negb (stop_programming self)
          && negb (dict_in port (pending_futures loc))
  then
    if check_hub_capacity self hub_id (hub_load_balancing loc) then
      let self := log_message (MsgNewDevice port hub_id) INFO self in
      let load := default ∅ (hub_load_balancing loc !! hub_id) in
      let hub_load := <[hub_id := load ∪ {[port]}]> (hub_load_balancing loc) in
      match executor_submit fqbn port hub_id self with
      | inl e =>
          (self, mkLocals (known_ports loc) (pending_futures loc) hub_load
                          (programmed_ports loc), Some e)
      | inr (self, future) =>
          (self, mkLocals (known_ports loc) (dict_set port future (pending_futures loc))
                          hub_load (programmed_ports loc), None)
      end
    else (log_message (MsgDelaying port hub_id) WARNING self, loc, None)
  else (self, loc, None).

(** [for port_info in current_ports_info: ...], left at the first exception. *)
Fixpoint dispatch_ports (fqbn : string) (new_ports : gset string)
    (current_ports_info : list PortInfo) (st : MCUProgrammerApp * Locals)
  : MCUProgrammerApp * Locals * option exn :=
  match current_ports_info with
  | [] => (st, None)
  | port_info :: rest =>
      match dispatch_port fqbn new_ports port_info st with
      | (st', None) => dispatch_ports fqbn new_ports rest st'
      | (st', Some e) => (st', Some e)
      end
  end.

(** Lines 1477-1493: one item of [pending_futures.items()]; the state
    carries [completed_ports] along. *)
Definition collect_future (item : string * nat)
    (st : MCUProgrammerApp * gset string * list string)
  : MCUProgrammerApp * gset string * list string :=
  let '(self, programmed, completed_ports) := st in
  let '(port, future) := item in
  match future_outcome self future with
  | None => (self, programmed, completed_ports)
  | Some (inr result) =>
      (result_queue_put result self,
       if bool_decide (mode_var self = "Single"%string) then programmed ∪ {[port]}
       else programmed,
       completed_ports ++ [port])
  | Some (inl e) =>
      (log_message (MsgFutureError port (exn_str e)) ERROR self,
       programmed, completed_ports ++ [port])
  end.

(** Lines 1496-1502: one port of [completed_ports]. *)
Definition remove_completed (port : string) (loc : Locals) : Locals :=
  mkLocals (known_ports loc)
           (if dict_in port (pending_futures loc)
            then dict_del port (pending_futures loc) else pending_futures loc)
           (release_port port (hub_load_balancing loc))
           (programmed_ports loc).

(** One iteration of the loop body.  [scan] is what
    [get_ports_with_hub_info()] returns or raises.  The sleeps that pace the
    loop are not recorded. *)
Definition tick (fqbn : string) (scan : exn + list PortInfo)
    (st : MCUProgrammerApp * Locals) : MCUProgrammerApp * Locals :=
  match scan with
  | inl e => (log_message (MsgAutoDetectionError (exn_str e)) ERROR st.1, st.2)
  | inr current_ports_info =>
      let current_ports : gset string := list_to_set (info_port <$> current_ports_info) in
      let new_ports := current_ports ∖ known_ports st.2 in
      let disconnected_ports := known_ports st.2 ∖ current_ports in
      let st := foldl (λ st port, drop_disconnected port st) st (elements disconnected_ports) in
      match dispatch_ports fqbn new_ports current_ports_info st with
      | (self, loc, Some e) =>
          (log_message (MsgAutoDetectionError (exn_str e)) ERROR self, loc)
      | (self, loc, None) =>
          let '(self, programmed, completed_ports) :=
            foldl (λ st item, collect_future item st)
                  (self, programmed_ports loc, []) (pending_futures loc) in
          let loc := mkLocals (known_ports loc) (pending_futures loc)
                              (hub_load_balancing loc) programmed in
          let loc := foldl (λ loc port, remove_completed port loc) loc completed_ports in
          (self, mkLocals current_ports (pending_futures loc)
                          (hub_load_balancing loc) (programmed_ports loc))
      end
  end.

(** The locals at the entry of [auto_detect_and_program], after its two
    opening log lines. *)
Definition enter_auto_detect (self : MCUProgrammerApp) : MCUProgrammerApp * Locals :=
  (log_message MsgHubSupport INFO (log_message MsgMonitoring INFO self),
   mkLocals ∅ [] ∅ ∅).

(** *** Workers finishing, results, statistics *)

(** A pool worker finishes the call behind [future]: the call is
    [program_device_with_retry] on the arguments given at submission, run
    against the tool script [tool] from clock reading [t0]; its log lines
    reach the terminal and the future becomes done.  The whole call is one
    step of the session: it reads the settings as they are at that moment. *)
Definition finish_future (future : nat) (tool : nat → tool_reply) (t0 : Z)
    (self : MCUProgrammerApp) : MCUProgrammerApp :=
  match executor self with
  | None => self
  | Some ex =>
      match futures ex !! future with
      | Some (mkFuture fqbn port hub_id None) =>
          let '(s, r) := run_job self tool t0 fqbn port hub_id in
          let done := mkFuture fqbn port hub_id (Some r) in
          set_terminal (terminal self ++ logged (trace s))
            (set_executor
               (Some (mkExecutor (max_workers ex) (<[future := done]> (futures ex))
                                 (shut_down ex)))
               self)
      | _ => self
      end
  end.

(** The statistics [start_programming] installs. *)
Definition reset_stats (time : Z) : Stats := mkStats 0 0 0 (Some time) [].

(** The statistics of [__init__]. *)
Definition initial_stats : Stats := mkStats 0 0 0 None [].

(** [process_programming_result] *)
Definition process_programming_result (result : ProgrammingResult)
    (self : MCUProgrammerApp) : MCUProgrammerApp :=
  let st := stats self in
  let st := mkStats (total_programmed st + 1) (successful st) (failed st)
                    (start_time st) (session_results st) in
  let st := mkStats (total_programmed st) (successful st) (failed st)
                    (start_time st) (session_results st ++ [result]) in
  let self := set_stats st self in
  let self :=
    if success result then
      let st := stats self in
      log_message (MsgProgrammed (port result) (duration result) (fqbn result)) SUCCESS
        (set_stats (mkStats (total_programmed st) (successful st + 1) (failed st)
                            (start_time st) (session_results st)) self)
    else
      let st := stats self in
      log_message (MsgFailed (port result) (message result) (duration result)) ERROR
        (set_stats (mkStats (total_programmed st) (successful st) (failed st + 1)
                            (start_time st) (session_results st)) self) in
  if bool_decide (settings_get (saved_data self) "log_detailed_output" 0 ≠ 0)
  then log_message (MsgDetails (message result)) INFO self
  else self.

(** The result processor thread takes the oldest result off the queue. *)
Definition process_next_result (self : MCUProgrammerApp) : MCUProgrammerApp :=
  match result_queue self with
  | [] => self
  | result :: rest => process_programming_result result (set_result_queue rest self)
  end.

(** [start_programming]; the three flags stand for the file test, for
    [self.programmer] being set and for [check_arduino_cli()], [time] for
    [time.time()].  [ThreadPoolExecutor] raises when [max_workers] is not
    positive, which ends the callback there. *)
Definition start_programming (file_exists programmer_set cli_available : bool) (time : Z)
    (self : MCUProgrammerApp) : MCUProgrammerApp :=
  if bool_decide (board_var self = ""%string) then self
  else if bool_decide (file_var self = ""%string) || negb file_exists then self
  else if negb programmer_set then self
  else if negb cli_available then self
  else
    let self := set_stats (reset_stats time) self in
    let self := set_stop_programming false self in
    let self := set_programming_active true self in
    let max_workers := settings_get (saved_data self) "max_parallel_jobs" 4 in
    if bool_decide (max_workers ≤ 0) then self
    else
      let self := set_executor (Some (mkExecutor max_workers [] false)) self in
      log_message MsgSessionStarted SUCCESS self.

(** [stop_programming_action] *)
Definition stop_programming_action (self : MCUProgrammerApp) : MCUProgrammerApp :=
  let self := set_stop_programming true self in
  let self := set_programming_active false self in
  let self := executor_shutdown self in
  log_message MsgStoppedByUser WARNING self.

(** [detect_nested_hubs]; [ports_info] is what [get_ports_with_hub_info()]
    returned. *)
Definition detect_nested_hubs (ports_info : list PortInfo) (self : MCUProgrammerApp)
  : MCUProgrammerApp * Z :=
  let max_hub_level :=
    foldl (λ max_hub_level port_info,
             Z.max max_hub_level (default 0 (info_hub_level port_info)))
          0 ports_info in
  if bool_decide (2 ≤ max_hub_level) then
    let self := log_message (MsgNestedHubs max_hub_level) WARNING self in
    let self := log_message MsgReducingParallel INFO self in
    (set_saved_data
       (dict_update
          (list_to_map
             [ ("max_devices_per_hub", 1); ("hub_programming_delay", 2000);
               ("max_parallel_jobs",
                Z.min 2 (settings_get (saved_data self) "max_parallel_jobs" 4)) ]%string)
          (saved_data self))
       self,
     max_hub_level)
  else (self, max_hub_level).

(** [refresh_ports] *)
Definition refresh_ports (ports_info : list PortInfo) (self : MCUProgrammerApp)
  : MCUProgrammerApp :=
  let self := (detect_nested_hubs ports_info self).1 in
  let current_ports := "All"%string :: (info_port <$> ports_info) in
  let device_count := Z.of_nat (length current_ports) - 1 in
  log_message (MsgRefreshed device_count) INFO self.

(** *** The session as a state machine

    What can happen while [auto_detect_and_program] runs: the loop makes one
    more iteration, a pool worker finishes a call, the result processor takes
    a result, the port list is refreshed (the Refresh button, or the port
    monitor), the user presses Stop. *)
Inductive event :=
| PollTick (scan : exn + list PortInfo)
| JobFinished (future : nat) (tool : nat → tool_reply) (t0 : Z)
| ResultProcessed
| RefreshPorts (ports_info : list PortInfo)
| StopPressed.

(** [while not self.stop_programming]: once the flag is set the loop makes no
    further iteration. *)
Definition step (fqbn : string) (st : MCUProgrammerApp * Locals) (ev : event)
  : MCUProgrammerApp * Locals :=
  match ev with
  | PollTick scan => if stop_programming st.1 then st else tick fqbn scan st
  | JobFinished future tool t0 => (finish_future future tool t0 st.1, st.2)
  | ResultProcessed => (process_next_result st.1, st.2)
  | RefreshPorts ports_info => (refresh_ports ports_info st.1, st.2)
  | StopPressed => (stop_programming_action st.1, st.2)
  end.

Definition run (fqbn : string) (evs : list event) (st : MCUProgrammerApp * Locals)
  : MCUProgrammerApp * Locals :=
  foldl (step fqbn) st evs.

(** *** [program_single_port] and [programming_manager] *)



(** * Notions the properties are stated with *)

(** The invariant of the session statistics. *)
Definition stats_invariant (st : Stats) : Prop :=
  total_programmed st = successful st + failed st ∧
  total_programmed st = Z.of_nat (length (session_results st)).



(** The pause between two attempts of a job. *)
Definition backoff (hub_id : string) : Z :=
  if bool_decide (hub_id ≠ "direct"%string) then 2000 else 1000.

(** The state in which the [for] loop of a job starts: after the hub
    pre-delay, if there is one. *)
Definition loop_entry (self : MCUProgrammerApp) (t0 : Z) (hub_id : string) : job_state :=
  if bool_decide (hub_id ≠ "direct"%string)
  then mkJobState (t0 + settings_get (saved_data self) "hub_programming_delay" 500) 0
                  [Sleep (settings_get (saved_data self) "hub_programming_delay" 500)]
  else mkJobState t0 0 [].

(** The jobs ever submitted to the pool for a port, and those of them still
    running (in flight). *)
Definition jobs_of (p : string) (self : MCUProgrammerApp) : list Future :=
  filter (λ f, fut_port f = p) (pool_futures self).



(** The loop body puts the admission question for a port: the port is not
    skipped as already programmed, it is new in this scan, no stop was
    requested and it has no pending future. *)
Definition up_for_admission (self : MCUProgrammerApp) (loc : Locals)
    (new_ports : gset string) (p : string) : Prop :=
  ¬ (mode_var self = "Single"%string ∧ p ∈ programmed_ports loc) ∧
  p ∈ new_ports ∧ stop_programming self = false ∧ p ∉ (pending_futures loc).*1.

(** A scan lists a port. *)
Definition lists (p : string) (current_ports_info : list PortInfo) : Prop :=
  p ∈ info_port <$> current_ports_info.

(** The port stays connected through a run of events: every scan that
    succeeds lists it. *)
Definition stays_connected (p : string) (evs : list event) : Prop :=
  ∀ current_ports_info, PollTick (inr current_ports_info) ∈ evs → lists p current_ports_info.

(** The per-hub capacity and the pool size the settings ask for. *)
Definition hub_capacity (self : MCUProgrammerApp) : Z :=
  settings_get (saved_data self) "max_devices_per_hub" 2.



(** ** Invariants of a session *)




(** The first state is the second up to the terminal log. *)
Definition logged_only (self' self : MCUProgrammerApp) : Prop :=
  saved_data self' = saved_data self ∧ mode_var self' = mode_var self ∧
  stop_programming self' = stop_programming self ∧ executor self' = executor self ∧
  result_queue self' = result_queue self ∧ stats self' = stats self.

(** A port is barred from dispatch in this iteration: it is not new, or it
    is skipped as already programmed. *)
Definition barred (self : MCUProgrammerApp) (loc : Locals) (new_ports : gset string)
    (p : string) : Prop :=
  p ∉ new_ports ∨ (mode_var self = "Single"%string ∧ p ∈ programmed_ports loc).

#[global] Instance up_for_admission_dec self loc new_ports p :
  Decision (up_for_admission self loc new_ports p).
Proof. unfold up_for_admission. apply _. Defined.

(** The pool accepts work. *)
Definition pool_open (self : MCUProgrammerApp) : Prop :=
  ∃ ex, executor self = Some ex ∧ shut_down ex = false.


(** * Concrete sessions used as witnesses and counterexamples *)

Definition uno : string := "arduino:avr:uno".

Definition boards : gmap string (string * string) :=
  {[ "Arduino Uno"%string := (uno, "arduino:avr"%string) ]}.

(** The application as [__init__] leaves it on a first start (no settings
    file: [saved_data] is a copy of the defaults), with a board and a
    firmware file chosen. *)
Definition fresh_app (port_choice mode : string) : MCUProgrammerApp :=
  mkApp default_settings boards "Arduino Uno" "blink.hex" port_choice mode
        false false None [] initial_stats [].


Definition started (self : MCUProgrammerApp) : MCUProgrammerApp :=
  start_programming true true true 0 self.

Definition tool_fails (n : nat) : tool_reply :=
  mkReply (Returns false "Programming failed: not in sync") 100.

Definition tool_succeeds (n : nat) : tool_reply :=
  mkReply (Returns true "Programming completed successfully") 100.

Definition tool_raises (n : nat) : tool_reply :=
  mkReply (Raises "[Errno 2] No such file or directory: 'arduino-cli'") 0.


(** Two boards behind the same hub ["1-2"]. *)
Definition port_A : PortInfo := mkPortInfo "COM3" (Some "1-2"%string) (Some 1).
Definition port_B : PortInfo := mkPortInfo "COM4" (Some "1-2"%string) (Some 1).


(** A session with one slot per hub. *)
Definition one_slot_app (mode : string) : MCUProgrammerApp :=
  set_saved_data (<["max_devices_per_hub" := 1]> (<["baud_rate" := 9600]> default_settings))
                 (fresh_app "All" mode).

Definition one_slot_session (mode : string) : MCUProgrammerApp * Locals :=
  enter_auto_detect (started (one_slot_app mode)).

(** What follows the first iteration of a session that saw both hub boards:
    the first board's job finishes, the loop collects it, the result is
    aggregated, and both boards stay plugged in for two more iterations. *)
Definition later_events : list event :=
  [ JobFinished 0 tool_succeeds 0; PollTick (inr [port_A; port_B]); ResultProcessed;
    PollTick (inr [port_A; port_B]); PollTick (inr [port_A; port_B]) ].



(** * Properties *)

(** ** Hub load *)

Lemma difference_singleton_absent (p : string) (ports : gset string) :
  p ∉ ports → ports ∖ {[p]} = ports.
Proof. intros Hp. apply difference_disjoint_L. by apply disjoint_singleton_r. Qed.

Lemma difference_singleton_twice (p : string) (ports : gset string) :
  ports ∖ {[p]} ∖ {[p]} = ports ∖ {[p]}.
Proof.
  apply difference_singleton_absent. rewrite not_elem_of_difference.
  right. by apply elem_of_singleton.
Qed.

Lemma release_port_lookup p (load : gmap string (gset string)) hub_id :
  release_port p load !! hub_id = (λ ports : gset string, ports ∖ {[p]}) <$> load !! hub_id.
Proof.
  unfold release_port. rewrite lookup_fmap.
  destruct (load !! hub_id) as [ports|]; simpl; [|done].
  f_equal. case_decide; [done|]. symmetry. by apply difference_singleton_absent.
Qed.

Lemma release_port_twice p (load : gmap string (gset string)) :
  release_port p (release_port p load) = release_port p load.
Proof.
  apply map_eq. intros hub_id. rewrite !release_port_lookup.
  destruct (load !! hub_id) as [ports|]; simpl; [|done].
  f_equal. apply difference_singleton_twice.
Qed.

Lemma release_port_absent p (load : gmap string (gset string)) :
  (∀ hub_id ports, load !! hub_id = Some ports → p ∉ ports) →
  release_port p load = load.
Proof.
  intros Habs. apply map_eq. intros hub_id. rewrite release_port_lookup.
  destruct (load !! hub_id) as [ports|] eqn:E; simpl; [|done].
  f_equal. apply difference_singleton_absent. by eapply Habs.
Qed.

Lemma release_port_gone p (load : gmap string (gset string)) hub_id ports :
  release_port p load !! hub_id = Some ports → p ∉ ports.
Proof.
  rewrite release_port_lookup. destruct (load !! hub_id); simpl; [|done].
  intros [= <-]. rewrite not_elem_of_difference. right. by apply elem_of_singleton.
Qed.

(** C9: releasing a port's hub slot is idempotent.  Removing the port from
    the hub load twice gives the state one removal gives; releasing a port
    that no hub group holds changes nothing; and the two clean-up steps of
    the loop (a completed port, a disconnected port) applied to the same
    port, in either order, leave the hub load one of them leaves. *)
Theorem release_port_idempotent (p : string) (load : gmap string (gset string)) :
  release_port p (release_port p load) = release_port p load ∧
  ((∀ hub_id ports, load !! hub_id = Some ports → p ∉ ports) →
   release_port p load = load) ∧
  (∀ self loc,
     hub_load_balancing loc = load →
     hub_load_balancing (drop_disconnected p (self, remove_completed p loc)).2
       = hub_load_balancing (remove_completed p loc) ∧
     hub_load_balancing (remove_completed p (drop_disconnected p (self, loc)).2)
       = hub_load_balancing (drop_disconnected p (self, loc)).2).
Proof.
  split; [apply release_port_twice|]. split; [apply release_port_absent|].
  intros self loc <-. unfold drop_disconnected, remove_completed; simpl.
  split.
  - destruct (dict_in p _); simpl; apply release_port_twice.
  - destruct (dict_in p (pending_futures loc)); simpl; apply release_port_twice.
Qed.

Lemma release_port_idempotent_witness :
  release_port "COM3" {[ "1-2"%string := {[ "COM4"%string ]} ]}
    = ({[ "1-2"%string := {[ "COM4"%string ]} ]} : gmap string (gset string)).
Proof.
  apply (release_port_idempotent "COM3" {[ "1-2"%string := {[ "COM4"%string ]} ]}).
  intros hub_id ports [_ <-]%lookup_singleton_Some.
  rewrite elem_of_singleton. discriminate.
Defined.

Lemma check_hub_capacity_direct self load :
  check_hub_capacity self "direct" load = true.
Proof. done. Qed.

Lemma check_hub_capacity_hub self hub_id load :
  hub_id ≠ "direct"%string →
  check_hub_capacity self hub_id load = true ↔
  Z.of_nat (size (default ∅ (load !! hub_id))) < hub_capacity self.
Proof.
  intros Hne. unfold check_hub_capacity, hub_capacity.
  destruct (decide (hub_id = "direct"%string)); [done|].
  by rewrite bool_decide_eq_true.
Qed.

(** What [dispatch_port] does once the admission question is put. *)
Lemma dispatch_port_asked fqbn new_ports port_info self loc :
  up_for_admission self loc new_ports (info_port port_info) →
  dispatch_port fqbn new_ports port_info (self, loc) =
    let p := info_port port_info in
    let hub_id := default "direct"%string (info_hub_id port_info) in
    if check_hub_capacity self hub_id (hub_load_balancing loc) then
      let self := log_message (MsgNewDevice p hub_id) INFO self in
      let load := default ∅ (hub_load_balancing loc !! hub_id) in
      let hub_load := <[hub_id := load ∪ {[p]}]> (hub_load_balancing loc) in
      match executor_submit fqbn p hub_id self with
      | inl e =>
          (self, mkLocals (known_ports loc) (pending_futures loc) hub_load
                          (programmed_ports loc), Some e)
      | inr (self, future) =>
          (self, mkLocals (known_ports loc) (dict_set p future (pending_futures loc))
                          hub_load (programmed_ports loc), None)
      end
    else (log_message (MsgDelaying p hub_id) WARNING self, loc, None).
Proof.
  intros (Hskip & Hnew & Hstop & Hpend). unfold dispatch_port, dict_in.
  rewrite (bool_decide_eq_true_2 _ Hnew), Hstop, (bool_decide_eq_false_2 _ Hpend).
  destruct (bool_decide (mode_var self = "Single"%string)) eqn:Hm;
    destruct (bool_decide (info_port port_info ∈ programmed_ports loc)) eqn:Hp;
    simpl; try done.
  apply bool_decide_eq_true in Hm, Hp. by destruct Hskip.
Qed.

(** What [dispatch_port] does otherwise: nothing. *)
Lemma dispatch_port_not_asked fqbn new_ports port_info self loc :
  ¬ up_for_admission self loc new_ports (info_port port_info) →
  dispatch_port fqbn new_ports port_info (self, loc) = (self, loc, None).
Proof.
  intros Hno. unfold dispatch_port, dict_in.
  destruct (bool_decide (mode_var self = "Single"%string)) eqn:Hm;
    destruct (bool_decide (info_port port_info ∈ programmed_ports loc)) eqn:Hp;
    simpl; try done;
    destruct (bool_decide (info_port port_info ∈ new_ports)) eqn:Hn; simpl; try done;
    destruct (stop_programming self) eqn:Hs; simpl; try done;
    destruct (bool_decide (info_port port_info ∈ (pending_futures loc).*1)) eqn:Hd;
    simpl; try done;
    destruct Hno; unfold up_for_admission;
    apply bool_decide_eq_true in Hn; apply bool_decide_eq_false in Hd;
    (split; [|done]); intros [? ?];
    try apply bool_decide_eq_false in Hm; try apply bool_decide_eq_false in Hp; done.
Qed.

(** C2: the admission check.  A port whose hub group is ["direct"] is
    admitted whatever the load.  For any other group the check answers yes
    exactly when the group's active set holds fewer ports than
    [max_devices_per_hub], which is 2 when the settings have no such entry.
    When the loop body puts the question for a port and the answer is yes,
    the port is in its group's active set afterwards; when the answer is no,
    the loop's variables are left as they were. *)
Theorem check_hub_capacity_admission (self : MCUProgrammerApp) (hub_id : string)
    (load : gmap string (gset string)) :
  check_hub_capacity self "direct" load = true ∧
  (hub_id ≠ "direct"%string →
   (check_hub_capacity self hub_id load = true ↔
    Z.of_nat (size (default ∅ (load !! hub_id))) < hub_capacity self)) ∧
  (saved_data self !! "max_devices_per_hub"%string = None → hub_capacity self = 2) ∧
  (∀ fqbn new_ports port_info loc,
     default "direct"%string (info_hub_id port_info) = hub_id →
     hub_load_balancing loc = load →
     up_for_admission self loc new_ports (info_port port_info) →
     let loc' := (dispatch_port fqbn new_ports port_info (self, loc)).1.2 in
     (check_hub_capacity self hub_id load = true →
      hub_load_balancing loc' !! hub_id
        = Some (default ∅ (load !! hub_id) ∪ {[info_port port_info]})) ∧
     (check_hub_capacity self hub_id load = false → loc' = loc)).
Proof.
  split; [done|]. split; [apply check_hub_capacity_hub|]. split.
  { intros Hnone. unfold hub_capacity, settings_get. by rewrite Hnone. }
  intros fqbn new_ports port_info loc <- <- Hask. cbv zeta.
  rewrite (dispatch_port_asked _ _ _ _ _ Hask). cbv zeta.
  split; intros ->; [|done].
  destruct (executor_submit _ _ _ _) as [e|[self' future]]; simpl;
    by rewrite lookup_insert_eq.
Qed.

Lemma check_hub_capacity_admission_witness :
  hub_load_balancing
    (dispatch_port uno {[ "COM3"%string ]} port_A
       (started (one_slot_app "Continuous"), mkLocals ∅ [] ∅ ∅)).1.2 !! "1-2"%string
  = Some (default ∅ ((∅ : gmap string (gset string)) !! "1-2"%string) ∪ {[ "COM3"%string ]}).
Proof.
  destruct (check_hub_capacity_admission (started (one_slot_app "Continuous")) "1-2" ∅)
    as (_ & _ & _ & Hadd).
  apply (Hadd uno {[ "COM3"%string ]} port_A (mkLocals ∅ [] ∅ ∅)).
  - reflexivity.
  - reflexivity.
  - unfold up_for_admission; simpl. split; [intros [[=] _]|].
    split; [by apply elem_of_singleton|]. split; [reflexivity|]. apply not_elem_of_nil.
  - reflexivity.
Defined.

(** ** Session statistics *)

Lemma reset_stats_invariant time : stats_invariant (reset_stats time).
Proof. by split. Qed.

Lemma process_programming_result_invariant result self :
  stats_invariant (stats self) →
  stats_invariant (stats (process_programming_result result self)).
Proof.
  unfold stats_invariant, process_programming_result. intros [H1 H2].
  destruct (success result); case_bool_decide; simpl; rewrite length_app; simpl; lia.
Qed.

Lemma process_next_result_invariant self :
  stats_invariant (stats self) → stats_invariant (stats (process_next_result self)).
Proof.
  unfold process_next_result. destruct (result_queue self); [done|].
  intros H. by apply process_programming_result_invariant.
Qed.

Lemma log_message_stats msg level self : stats (log_message msg level self) = stats self.
Proof. done. Qed.

Lemma finish_future_stats future tool t0 self :
  stats (finish_future future tool t0 self) = stats self.
Proof.
  unfold finish_future. destruct (executor self) as [ex|]; [|done].
  destruct (futures ex !! future) as [[? ? ? [?|]]|]; try done.
  by destruct (run_job _ _ _ _ _ _).
Qed.

Lemma refresh_ports_stats ports_info self :
  stats (refresh_ports ports_info self) = stats self.
Proof.
  unfold refresh_ports, detect_nested_hubs. by case_bool_decide.
Qed.

Lemma stop_programming_action_stats self :
  stats (stop_programming_action self) = stats self.
Proof.
  unfold stop_programming_action, executor_shutdown; simpl.
  by destruct (executor self).
Qed.

Lemma drop_disconnected_stats p st : stats (drop_disconnected p st).1 = stats st.1.
Proof. destruct st as [self loc]; simpl. by destruct (dict_in p _). Qed.

Lemma dispatch_port_stats fqbn new_ports port_info st :
  stats (dispatch_port fqbn new_ports port_info st).1.1 = stats st.1.
Proof.
  destruct st as [self loc]. unfold dispatch_port, executor_submit.
  destruct (_ && _); [done|]. destruct (_ && _); [|done].
  destruct (check_hub_capacity _ _ _); [|done]. simpl.
  destruct (executor self) as [ex|]; [|done]. by destruct (shut_down ex).
Qed.

Lemma dispatch_ports_stats fqbn new_ports infos : ∀ st,
  stats (dispatch_ports fqbn new_ports infos st).1.1 = stats st.1.
Proof.
  induction infos as [|port_info rest IH]; intros st; [done|]. simpl.
  pose proof (dispatch_port_stats fqbn new_ports port_info st) as H.
  destruct (dispatch_port _ _ _ _) as [st' [e|]]; [done|].
  rewrite IH. done.
Qed.

Lemma collect_future_stats item st : stats (collect_future item st).1.1 = stats st.1.1.
Proof.
  destruct st as [[self programmed] completed], item as [p future]; simpl.
  by destruct (future_outcome self future) as [[e|result]|].
Qed.

Lemma tick_stats fqbn scan st : stats (tick fqbn scan st).1 = stats st.1.
Proof.
  unfold tick. destruct scan as [e|infos]; [done|].
  set (st1 := foldl _ st _).
  assert (Hst1 : stats st1.1 = stats st.1).
  { subst st1. generalize (elements (known_ports st.2 ∖ list_to_set (info_port <$> infos))).
    intros l. revert st. induction l as [|p l IH]; intros st; [done|]. simpl.
    rewrite IH. apply drop_disconnected_stats. }
  pose proof (dispatch_ports_stats fqbn
    (list_to_set (info_port <$> infos) ∖ known_ports st.2) infos st1) as Hd.
  destruct (dispatch_ports _ _ _ _) as [[self loc] [e|]]; simpl in *; [congruence|].
  assert (Hc : ∀ l acc, stats (foldl (λ st item, collect_future item st) acc l).1.1
                        = stats acc.1.1).
  { induction l as [|item l IH]; intros acc; [done|]. simpl.
    rewrite IH. apply collect_future_stats. }
  specialize (Hc (pending_futures loc) (self, programmed_ports loc, [])).
  destruct (foldl _ (self, programmed_ports loc, []) _) as [[self' programmed] completed].
  simpl in *. congruence.
Qed.

Lemma step_stats_invariant fqbn st ev :
  stats_invariant (stats st.1) → stats_invariant (stats (step fqbn st ev).1).
Proof.
  intros H. destruct ev; unfold step; cbn [fst].
  - destruct (stop_programming st.1); [done|]. by rewrite tick_stats.
  - by rewrite finish_future_stats.
  - by apply process_next_result_invariant.
  - by rewrite refresh_ports_stats.
  - by rewrite stop_programming_action_stats.
Qed.

Lemma run_stats_invariant fqbn evs : ∀ st,
  stats_invariant (stats st.1) → stats_invariant (stats (run fqbn evs st).1).
Proof.
  induction evs as [|ev evs IH]; intros st H; [done|].
  apply IH. by apply step_stats_invariant.
Qed.

(** C3: after every aggregation step the statistics satisfy
    [total_programmed = successful + failed = len(session_results)].
    The statistics [start_programming] installs satisfy it, every call of
    [process_programming_result] carries it over, and so it holds after
    whatever happens in a session, in any order: results aggregated, loop
    iterations, workers finishing, refreshes, a stop. *)
Theorem stats_total_is_successful_plus_failed :
  (∀ time, stats_invariant (reset_stats time)) ∧
  (∀ result self,
     stats_invariant (stats self) →
     stats_invariant (stats (process_programming_result result self))) ∧
  (∀ time self results,
     stats_invariant
       (stats (foldl (λ self result, process_programming_result result self)
                     (set_stats (reset_stats time) self) results))) ∧
  (∀ time self loc fqbn evs,
     stats_invariant (stats (run fqbn evs (set_stats (reset_stats time) self, loc)).1)).
Proof.
  split; [apply reset_stats_invariant|].
  split; [apply process_programming_result_invariant|]. split.
  - intros time self results.
    assert (H : stats_invariant (stats (set_stats (reset_stats time) self)))
      by apply reset_stats_invariant.
    revert H. generalize (set_stats (reset_stats time) self).
    induction results as [|r rs IH]; intros s H; [done|]. simpl.
    apply IH. by apply process_programming_result_invariant.
  - intros time self loc fqbn evs. apply run_stats_invariant. apply reset_stats_invariant.
Qed.

(** ** The retry loop of a job *)

Lemma invocations_app tr1 tr2 :
  invocations (tr1 ++ tr2) = (invocations tr1 + invocations tr2)%nat.
Proof. unfold invocations, tool_calls. by rewrite omap_app, length_app. Qed.

Lemma sleeps_app tr1 tr2 : sleeps (tr1 ++ tr2) = sleeps tr1 ++ sleeps tr2.
Proof. unfold sleeps. apply omap_app. Qed.

Ltac unfold_job :=
  unfold attempt_body, try_except, new_ProgrammingResult, saved_data_item, job_log,
    emit, time_time, time_sleep, program_board, raise;
  unfold mbind, mret, job_bind, job_ret.

Lemma run_job_unfold self tool t0 fq p hub :
  run_job self tool t0 fq p hub =
    for_attempts self tool fq p hub (file_var self) (board_var self)
      (settings_get (saved_data self) "max_retries" 3) t0
      (range (settings_get (saved_data self) "max_retries" 3 + 1))
      (loop_entry self t0 hub).
Proof.
  unfold run_job, program_device_with_retry, loop_entry.
  unfold mbind, job_bind, time_time, time_sleep, mret, job_ret. simpl.
  destruct (bool_decide (hub ≠ "direct"%string)); done.
Qed.

Section Retry.
Context (self : MCUProgrammerApp) (tool : nat → tool_reply).
Context (fq p hub fw bt : string) (mr t0 : Z).

Lemma for_attempts_cons a rest s :
  for_attempts self tool fq p hub fw bt mr t0 (a :: rest) s =
    match attempt_body self tool fq p hub fw bt mr t0 a s with
    | (s1, inr (Some res)) => (s1, inr res)
    | (s1, inr None) => for_attempts self tool fq p hub fw bt mr t0 rest s1
    | (s1, inl e) => (s1, inl e)
    end.
Proof.
  simpl. unfold mbind at 1, job_bind.
  destruct (attempt_body _ _ _ _ _ _ _ _ _ _ _) as [s1 [e|[res|]]]; done.
Qed.

Lemma for_attempts_seq_S a n s :
  for_attempts self tool fq p hub fw bt mr t0 (Z.of_nat <$> seq a (S n)) s =
    match attempt_body self tool fq p hub fw bt mr t0 (Z.of_nat a) s with
    | (s1, inr (Some res)) => (s1, inr res)
    | (s1, inr None) =>
        for_attempts self tool fq p hub fw bt mr t0 (Z.of_nat <$> seq (S a) n) s1
    | (s1, inl e) => (s1, inl e)
    end.
Proof. apply for_attempts_cons. Qed.

(** *** What one attempt and the whole loop leave in the trace, whatever
    the settings and the tool *)

Lemma attempt_body_effect a s :
  ∃ s' r, attempt_body self tool fq p hub fw bt mr t0 a s = (s', r) ∧
    calls s' = S (calls s) ∧
    invocations (trace s') = S (invocations (trace s)) ∧
    sleeps (trace s') = sleeps (trace s) ++ (if bool_decide (0 < a) then [backoff hub] else []) ∧
    (∀ res, r = inr (Some res) → port res = p ∧ fqbn res = fq).
Proof.
  unfold_job. unfold backoff.
  destruct (bool_decide (0 < a)); simpl;
    destruct (outcome (tool (calls s))) as [[|] msg|text]; simpl;
    destruct (saved_data self !! "baud_rate"%string) as [baud|]; simpl;
    destruct (bool_decide (a = mr)); simpl;
    eexists _, _; (split; [reflexivity|]); simpl;
    unfold invocations, tool_calls, sleeps;
    rewrite ?omap_app, ?length_app; simpl; rewrite ?app_nil_r;
    (split; [done|split; [lia|split; [done|]]]);
    intros res [= <-]; done.
Qed.

Lemma for_attempts_nil_effect s :
  ∃ s' r, for_attempts self tool fq p hub fw bt mr t0 [] s = (s', r) ∧
    calls s' = calls s ∧ tool_calls (trace s') = tool_calls (trace s) ∧
    sleeps (trace s') = sleeps (trace s) ∧
    (∀ res, r = inr res → port res = p ∧ fqbn res = fq).
Proof.
  simpl. unfold_job.
  destruct (saved_data self !! "baud_rate"%string) as [baud|]; simpl;
    eexists _, _; (split; [reflexivity|]); simpl;
    unfold tool_calls, sleeps; rewrite ?omap_app; simpl; rewrite ?app_nil_r;
    (split; [done|split; [done|split; [done|]]]);
    intros res [= <-]; done.
Qed.

Lemma for_attempts_effect n : ∀ a s pre,
  calls s = a →
  invocations (trace s) = a →
  sleeps (trace s) = pre ++ replicate (pred a) (backoff hub) →
  ∃ s' r, for_attempts self tool fq p hub fw bt mr t0 (Z.of_nat <$> seq a n) s = (s', r) ∧
    invocations (trace s') = calls s' ∧
    sleeps (trace s') = pre ++ replicate (pred (calls s')) (backoff hub) ∧
    (a ≤ calls s' ≤ a + n)%nat ∧
    (∀ res, r = inr res → port res = p ∧ fqbn res = fq).
Proof.
  induction n as [|n IH]; intros a s pre Hc Hi Hs.
  - destruct (for_attempts_nil_effect s) as (s' & r & E & Hc' & Hi' & Hs' & Hp).
    exists s', r. split; [exact E|]. unfold invocations in *.
    rewrite Hi', Hs', Hc'.
    split; [lia|split; [congruence|split; [lia|exact Hp]]].
  - rewrite for_attempts_seq_S.
    destruct (attempt_body_effect (Z.of_nat a) s) as (s1 & r1 & E & Hc1 & Hi1 & Hs1 & Hp1).
    rewrite E.
    assert (Hs1' : sleeps (trace s1) = pre ++ replicate (pred (S a)) (backoff hub)).
    { rewrite Hs1, Hs. destruct a as [|a].
      - rewrite bool_decide_eq_false_2 by lia. simpl. by rewrite !app_nil_r.
      - rewrite bool_decide_eq_true_2 by lia. simpl.
        rewrite <- app_assoc. f_equal.
        change (backoff hub :: replicate a (backoff hub))
          with (replicate (S a) (backoff hub)).
        by rewrite replicate_S_end. }
    destruct r1 as [e|[res|]].
    + exists s1, (inl e). rewrite Hc1, Hi1, Hc, Hi.
      split; [done|split; [done|split; [done|split; [lia|done]]]].
    + exists s1, (inr res). rewrite Hc1, Hi1, Hc, Hi.
      split; [done|split; [done|split; [done|split; [lia|]]]].
      intros res' [= <-]. by apply Hp1.
    + destruct (IH (S a) s1 pre) as (s' & r & E' & Hi' & Hs' & Hc' & Hp'); [lia|lia|done|].
      exists s', r. split; [done|split; [done|split; [done|split; [lia|done]]]].
Qed.

(** *** Without a ["baud_rate"] entry in the settings *)

Section NoBaudRate.
Hypothesis Hnone : saved_data self !! "baud_rate"%string = None.

Lemma attempt_body_no_baud_rate a s :
  ∃ s', attempt_body self tool fq p hub fw bt mr t0 a s =
          (s', if bool_decide (a = mr) then inl (KeyError "baud_rate") else inr None).
Proof.
  unfold_job.
  destruct (bool_decide (0 < a)); simpl;
    destruct (outcome (tool (calls s))) as [[|] msg|text]; simpl;
    rewrite ?Hnone; simpl;
    destruct (bool_decide (a = mr)); simpl; rewrite ?Hnone; simpl;
    eexists; reflexivity.
Qed.

Lemma for_attempts_no_baud_rate attempts : ∀ s,
  (for_attempts self tool fq p hub fw bt mr t0 attempts s).2 = inl (KeyError "baud_rate").
Proof.
  induction attempts as [|a rest IH]; intros s.
  - simpl. unfold_job. by rewrite Hnone.
  - rewrite for_attempts_cons.
    destruct (attempt_body_no_baud_rate a s) as [s' ->].
    destruct (bool_decide (a = mr)); [done|apply IH].
Qed.
End NoBaudRate.

(** *** With a ["baud_rate"] entry *)

Section BaudRate.
Context (baud : Z).
Hypothesis Hbaud : saved_data self !! "baud_rate"%string = Some baud.





Hypothesis Hmr : 0 ≤ mr.


End BaudRate.
End Retry.

(** A job's trace, whatever the settings and the tool: one recorded tool
    call per call made; the sleeps are the hub pre-delay (for a hub port)
    followed by one backoff pause before each attempt but the first; a
    returned result carries the job's port and fqbn. *)
Lemma run_job_trace self tool t0 fq p hub :
  ∃ s r, run_job self tool t0 fq p hub = (s, r) ∧
    invocations (trace s) = calls s ∧
    sleeps (trace s) =
      sleeps (trace (loop_entry self t0 hub)) ++ replicate (pred (calls s)) (backoff hub) ∧
    (calls s ≤ Z.to_nat (settings_get (saved_data self) "max_retries" 3 + 1))%nat ∧
    (∀ res, r = inr res → port res = p ∧ fqbn res = fq).
Proof.
  rewrite run_job_unfold. unfold range.
  destruct (for_attempts_effect self tool fq p hub (file_var self) (board_var self)
              (settings_get (saved_data self) "max_retries" 3) t0
              (Z.to_nat (settings_get (saved_data self) "max_retries" 3 + 1))
              0%nat (loop_entry self t0 hub) (sleeps (trace (loop_entry self t0 hub))))
    as (s & r & E & Hi & Hs & Hc & Hp).
  - unfold loop_entry. by case_bool_decide.
  - unfold loop_entry. by case_bool_decide.
  - simpl. by rewrite app_nil_r.
  - exists s, r. split; [done|split; [done|split; [done|split; [lia|done]]]].
Qed.




(** Without one, [KeyError: 'baud_rate'] leaves it, whatever the tool does. *)
Lemma key_error_escapes self tool t0 fq p hub :
  saved_data self !! "baud_rate"%string = None →
  (run_job self tool t0 fq p hub).2 = inl (KeyError "baud_rate").
Proof.
  intros Hnone. rewrite run_job_unfold. by apply for_attempts_no_baud_rate.
Qed.

(** C4, on the settings of a first start (the defaults, which have no
    ["baud_rate"]): the tool succeeds at the first call, and the job goes on
    to call it [max_retries + 1 = 4] times and returns nothing; the tool
    fails at every call, and the job makes its 4 calls and returns no failed
    result either.  Both times [KeyError: 'baud_rate'] leaves the function. *)
Theorem retry_on_default_settings :
  let self := started (fresh_app "All" "Continuous") in
  let ok := run_job self tool_succeeds 0 uno "COM3" "direct" in
  let ko := run_job self tool_fails 0 uno "COM3" "direct" in
  invocations (trace ok.1) = 4%nat ∧ ok.2 = inl (KeyError "baud_rate") ∧
  invocations (trace ko.1) = 4%nat ∧ ko.2 = inl (KeyError "baud_rate").
Proof. vm_compute. done. Qed.

(** C7: an exception does leave [program_device_with_retry] when the
    settings have no ["baud_rate"] entry, as on a first start: building the
    failed result in the [except] branch of the last attempt raises
    [KeyError], and nothing catches it.  This holds for every job and every
    behaviour of the tool. *)
Theorem exception_escapes_retry self tool t0 fq p hub :
  saved_data self !! "baud_rate"%string = None →
  ∃ s, run_job self tool t0 fq p hub = (s, inl (KeyError "baud_rate")).
Proof.
  intros Hnone. pose proof (key_error_escapes self tool t0 fq p hub Hnone) as H.
  destruct (run_job self tool t0 fq p hub) as [s r]. exists s. simpl in H. by subst.
Qed.

Lemma exception_escapes_retry_witness :
  ∃ s, run_job (started (fresh_app "All" "Continuous")) tool_raises 0 uno "COM3" "direct"
       = (s, inl (KeyError "baud_rate")).
Proof.
  apply (exception_escapes_retry (started (fresh_app "All" "Continuous"))).
  vm_compute. reflexivity.
Defined.

(** ** The dispatch loop *)




Lemma executor_submit_inr fq p hub self self' future :
  executor_submit fq p hub self = inr (self', future) →
  future = length (pool_futures self) ∧
  pool_futures self' = pool_futures self ++ [mkFuture fq p hub None] ∧
  saved_data self' = saved_data self ∧ mode_var self' = mode_var self ∧
  stop_programming self' = stop_programming self ∧
  result_queue self' = result_queue self ∧ stats self' = stats self.
Proof.
  unfold executor_submit, pool_futures.
  destruct (executor self) as [ex|] eqn:E; [|done].
  destruct (shut_down ex); [done|]. by intros [= <- <-].
Qed.


(** **** The pending futures *)





(** *** What the parts of the loop body leave alone *)

Lemma drop_disconnected_frame p st :
  logged_only (drop_disconnected p st).1 st.1 ∧
  known_ports (drop_disconnected p st).2 = known_ports st.2 ∧
  programmed_ports (drop_disconnected p st).2 = programmed_ports st.2.
Proof. destruct st as [self loc]. simpl. by destruct (dict_in p _). Qed.

Lemma drop_disconnected_all_frame ports : ∀ st,
  logged_only (foldl (λ st p, drop_disconnected p st) st ports).1 st.1 ∧
  known_ports (foldl (λ st p, drop_disconnected p st) st ports).2 = known_ports st.2 ∧
  programmed_ports (foldl (λ st p, drop_disconnected p st) st ports).2 = programmed_ports st.2.
Proof.
  induction ports as [|p ports IH]; intros st; [done|]. cbn [foldl].
  destruct (IH (drop_disconnected p st)) as ((? & ? & ? & ? & ? & ?) & ? & ?).
  destruct (drop_disconnected_frame p st) as ((? & ? & ? & ? & ? & ?) & ? & ?).
  unfold logged_only. split_and!; congruence.
Qed.

Lemma dispatch_port_frame fqbn new_ports port_info st :
  let st' := (dispatch_port fqbn new_ports port_info st).1 in
  mode_var st'.1 = mode_var st.1 ∧ saved_data st'.1 = saved_data st.1 ∧
  stop_programming st'.1 = stop_programming st.1 ∧
  known_ports st'.2 = known_ports st.2 ∧
  programmed_ports st'.2 = programmed_ports st.2 ∧
  result_queue st'.1 = result_queue st.1 ∧ stats st'.1 = stats st.1 ∧
  (∀ f, f ∈ pool_futures st'.1 → f ∈ pool_futures st.1 ∨ fut_outcome f = None) ∧
  (∀ p, barred st.1 st.2 new_ports p → jobs_of p st'.1 = jobs_of p st.1).
Proof.
  destruct st as [self loc]. cbv zeta.
  destruct (decide (up_for_admission self loc new_ports (info_port port_info))) as [Hask|Hno];
    [|rewrite dispatch_port_not_asked by done; split_and!; auto].
  rewrite (dispatch_port_asked _ _ _ _ _ Hask). cbv zeta.
  destruct (check_hub_capacity _ _ _); [|split_and!; auto].
  destruct (executor_submit _ _ _ _) as [e|[self' future]] eqn:Hsub; [split_and!; auto|].
  apply executor_submit_inr in Hsub as (_ & Hpool & Hdata & Hmode & Hstop & Hq & Hs).
  change (pool_futures (log_message _ _ self)) with (pool_futures self) in Hpool.
  simpl in *. split_and!; try done.
  - intros f. rewrite Hpool, elem_of_app, list_elem_of_singleton.
    intros [?| ->]; [by left|by right].
  - intros p Hbar. unfold jobs_of. rewrite Hpool, filter_app.
    rewrite filter_cons, decide_False, filter_nil; [by rewrite app_nil_r|].
    simpl. intros <-. destruct Hask as (Hskip & Hnew & _). by destruct Hbar.
Qed.

Lemma dispatch_ports_frame fqbn new_ports infos : ∀ st,
  let st' := (dispatch_ports fqbn new_ports infos st).1 in
  mode_var st'.1 = mode_var st.1 ∧ saved_data st'.1 = saved_data st.1 ∧
  stop_programming st'.1 = stop_programming st.1 ∧
  known_ports st'.2 = known_ports st.2 ∧
  programmed_ports st'.2 = programmed_ports st.2 ∧
  result_queue st'.1 = result_queue st.1 ∧ stats st'.1 = stats st.1 ∧
  (∀ f, f ∈ pool_futures st'.1 → f ∈ pool_futures st.1 ∨ fut_outcome f = None) ∧
  (∀ p, barred st.1 st.2 new_ports p → jobs_of p st'.1 = jobs_of p st.1).
Proof.
  induction infos as [|port_info rest IH]; intros st; [cbv zeta; split_and!; auto|].
  cbv zeta. simpl.
  pose proof (dispatch_port_frame fqbn new_ports port_info st) as H. cbv zeta in H.
  destruct (dispatch_port _ _ _ _) as [st1 [e|]]; [exact H|].
  destruct H as (Hm & Hd & Hs & Hk & Hp & Hq & Hst & Hf & Hj).
  destruct (IH st1) as (Hm' & Hd' & Hs' & Hk' & Hp' & Hq' & Hst' & Hf' & Hj').
  simpl in *. split_and!; try congruence.
  - intros f Hin. destruct (Hf' f Hin) as [?|?]; [by apply Hf|by right].
  - intros p Hbar. rewrite Hj', Hj; [done|done|].
    unfold barred in *. by rewrite Hm, Hp.
Qed.

Lemma collect_future_frame item st :
  logged_only (set_result_queue (result_queue st.1.1) (collect_future item st).1.1) st.1.1 ∧
  st.1.2 ⊆ (collect_future item st).1.2.
Proof.
  destruct st as [[self programmed] completed], item as [p future]. simpl.
  destruct (future_outcome self future) as [[e|result]|]; simpl; [done| |done].
  split; [done|]. case_bool_decide; set_solver.
Qed.

Lemma collect_futures_frame items : ∀ st,
  logged_only (set_result_queue (result_queue st.1.1)
                 (foldl (λ st item, collect_future item st) st items).1.1) st.1.1 ∧
  st.1.2 ⊆ (foldl (λ st item, collect_future item st) st items).1.2.
Proof.
  induction items as [|item items IH]; intros st; [done|]. cbn [foldl].
  destruct (IH (collect_future item st)) as ((? & ? & ? & ? & ? & ?) & Hgrow').
  destruct (collect_future_frame item st) as ((? & ? & ? & ? & ? & ?) & Hgrow).
  unfold logged_only in *. simpl in *. split_and!; try congruence. by etrans.
Qed.

Lemma remove_completed_all_frame ports : ∀ loc,
  known_ports (foldl (λ loc p, remove_completed p loc) loc ports) = known_ports loc ∧
  programmed_ports (foldl (λ loc p, remove_completed p loc) loc ports) = programmed_ports loc.
Proof.
  induction ports as [|p ports IH]; intros loc; [done|]. cbn [foldl].
  destruct (IH (remove_completed p loc)) as [-> ->]. done.
Qed.

(** One iteration of the loop body: the settings, the mode and the stop flag
    stay; the programmed ports only grow; a port known before stays known if
    the scan lists it; and no job is submitted for a port that was known
    before or that is skipped as programmed. *)
Lemma tick_frame fqbn scan st :
  mode_var (tick fqbn scan st).1 = mode_var st.1 ∧
  saved_data (tick fqbn scan st).1 = saved_data st.1 ∧
  stop_programming (tick fqbn scan st).1 = stop_programming st.1 ∧
  programmed_ports st.2 ⊆ programmed_ports (tick fqbn scan st).2 ∧
  (∀ p, p ∈ known_ports st.2 →
        (∀ infos, scan = inr infos → lists p infos) →
        p ∈ known_ports (tick fqbn scan st).2) ∧
  (∀ p, p ∈ known_ports st.2 ∨ (mode_var st.1 = "Single"%string ∧ p ∈ programmed_ports st.2) →
        jobs_of p (tick fqbn scan st).1 = jobs_of p st.1).
Proof.
  unfold tick. destruct scan as [e|infos]; [done|].
  destruct (drop_disconnected_all_frame
              (elements (known_ports st.2 ∖ list_to_set (info_port <$> infos))) st)
    as ((Hd1 & Hm1 & Hs1 & He1 & _ & _) & Hk1 & Hp1).
  set (st1 := foldl _ st _) in *.
  pose proof (dispatch_ports_frame fqbn
    (list_to_set (info_port <$> infos) ∖ known_ports st.2) infos st1) as H2.
  cbv zeta in H2. destruct H2 as (Hm2 & Hd2 & Hs2 & Hk2 & Hp2 & _ & _ & _ & Hj2).
  assert (Hjobs : ∀ p,
    p ∈ known_ports st.2 ∨ (mode_var st.1 = "Single"%string ∧ p ∈ programmed_ports st.2) →
    jobs_of p (dispatch_ports fqbn (list_to_set (info_port <$> infos) ∖ known_ports st.2)
                 infos st1).1.1 = jobs_of p st.1).
  { intros p Hp. rewrite Hj2.
    - unfold jobs_of, pool_futures. by rewrite He1.
    - unfold barred. rewrite Hm1, Hp1. destruct Hp as [Hp|Hp]; [left|by right].
      by intros [_ ?]%elem_of_difference. }
  destruct (dispatch_ports _ _ _ _) as [[self loc] [e|]]; simpl in *.
  { split_and!; try congruence. exact Hjobs. }
  destruct (collect_futures_frame (pending_futures loc) (self, programmed_ports loc, []))
    as ((Hd3 & Hm3 & Hs3 & He3 & _ & _) & Hp3).
  destruct (foldl _ (self, programmed_ports loc, []) _) as [[self' programmed] completed].
  simpl in *.
  destruct (remove_completed_all_frame completed
              (mkLocals (known_ports loc) (pending_futures loc)
                        (hub_load_balancing loc) programmed)) as [Hk4 Hp4].
  destruct (foldl _ _ completed) as [known' pending' load' programmed']. simpl in *.
  split_and!; try congruence.
  - subst programmed'. rewrite <- Hp1, <- Hp2. done.
  - intros p Hp Hl. specialize (Hl infos eq_refl). unfold lists in Hl. set_solver.
  - intros p Hp. rewrite <- (Hjobs p Hp). unfold jobs_of, pool_futures. by rewrite He3.
Qed.

Lemma pool_futures_executor self self' :
  executor self' = executor self → pool_futures self' = pool_futures self.
Proof. unfold pool_futures. by intros ->. Qed.



Lemma list_insert_filter_length {A} (P : A → Prop) `{∀ x, Decision (P x)} (l : list A) :
  ∀ i x y, l !! i = Some x → (P x ↔ P y) →
  length (filter P (<[i:=y]> l)) = length (filter P l).
Proof.
  induction l as [|a l IH]; intros i x y Hi Hxy; [done|].
  destruct i as [|i]; simpl in *.
  - simplify_eq. rewrite !filter_cons.
    repeat case_decide; simpl; first [reflexivity|exfalso; tauto].
  - rewrite !filter_cons. destruct (decide (P a)); simpl; erewrite IH; done.
Qed.

(** A worker finishing changes one future of the pool, and only what it
    holds. *)
Lemma finish_future_frame future tool t0 self :
  mode_var (finish_future future tool t0 self) = mode_var self ∧
  saved_data (finish_future future tool t0 self) = saved_data self ∧
  stop_programming (finish_future future tool t0 self) = stop_programming self ∧
  result_queue (finish_future future tool t0 self) = result_queue self ∧
  stats (finish_future future tool t0 self) = stats self ∧
  (∀ i f, pool_futures self !! i = Some f →
     ∃ f', pool_futures (finish_future future tool t0 self) !! i = Some f' ∧
           fut_port f' = fut_port f) ∧
  (∀ f' result, f' ∈ pool_futures (finish_future future tool t0 self) →
     fut_outcome f' = Some (inr result) →
     port result = fut_port f' ∨ (f' ∈ pool_futures self)) ∧
  (∀ p, length (jobs_of p (finish_future future tool t0 self)) = length (jobs_of p self)).
Proof.
  unfold finish_future, jobs_of, pool_futures.
  destruct (executor self) as [ex|] eqn:Hex; [|rewrite Hex; split_and!; eauto].
  destruct (futures ex !! future) as [[fq p hub [o|]]|] eqn:Hf;
    try (rewrite Hex; split_and!; eauto).
  destruct (run_job_trace self tool t0 fq p hub) as (s & r & E & _ & _ & _ & Hport).
  rewrite E. simpl. split_and!; try done.
  - intros i f Hi. destruct (decide (i = future)) as [->|Hne].
    + rewrite list_lookup_insert_eq by (by eapply lookup_lt_Some).
      eexists. split; [reflexivity|]. rewrite Hf in Hi. by injection Hi as <-.
    + rewrite list_lookup_insert_ne by done. by exists f.
  - intros f' result [i Hi]%list_elem_of_lookup_1 Hout.
    destruct (decide (i = future)) as [->|Hne].
    + rewrite list_lookup_insert_eq in Hi by (by eapply lookup_lt_Some).
      injection Hi as <-. simpl in *. injection Hout as ->. left. by apply Hport.
    + rewrite list_lookup_insert_ne in Hi by done. right. by eapply list_elem_of_lookup_2.
  - intros q. by eapply list_insert_filter_length.
Qed.



Lemma process_programming_result_frame result self :
  executor (process_programming_result result self) = executor self ∧
  mode_var (process_programming_result result self) = mode_var self ∧
  saved_data (process_programming_result result self) = saved_data self ∧
  stop_programming (process_programming_result result self) = stop_programming self ∧
  result_queue (process_programming_result result self) = result_queue self ∧
  session_results (stats (process_programming_result result self))
    = session_results (stats self) ++ [result].
Proof.
  unfold process_programming_result. destruct (success result); case_bool_decide; done.
Qed.

Lemma process_next_result_frame self :
  executor (process_next_result self) = executor self ∧
  mode_var (process_next_result self) = mode_var self ∧
  saved_data (process_next_result self) = saved_data self ∧
  stop_programming (process_next_result self) = stop_programming self ∧
  (∀ result, result ∈ result_queue (process_next_result self)
                        ++ session_results (stats (process_next_result self)) ↔
             result ∈ result_queue self ++ session_results (stats self)).
Proof.
  unfold process_next_result.
  destruct (result_queue self) as [|result rest] eqn:Hq; [by rewrite Hq|].
  destruct (process_programming_result_frame result (set_result_queue rest self))
    as (Hex & Hmode & Hd & Hs & Hqueue & Hres).
  split_and!; try done.
  intros result'. rewrite Hqueue, Hres. simpl.
  rewrite !elem_of_cons, !elem_of_app, !elem_of_cons, elem_of_nil. tauto.
Qed.

Lemma refresh_ports_frame ports_info self :
  executor (refresh_ports ports_info self) = executor self ∧
  mode_var (refresh_ports ports_info self) = mode_var self ∧
  stop_programming (refresh_ports ports_info self) = stop_programming self ∧
  result_queue (refresh_ports ports_info self) = result_queue self ∧
  stats (refresh_ports ports_info self) = stats self.
Proof. unfold refresh_ports, detect_nested_hubs. by case_bool_decide. Qed.

Lemma stop_programming_action_frame self :
  pool_futures (stop_programming_action self) = pool_futures self ∧
  mode_var (stop_programming_action self) = mode_var self ∧
  saved_data (stop_programming_action self) = saved_data self ∧
  result_queue (stop_programming_action self) = result_queue self ∧
  stats (stop_programming_action self) = stats self.
Proof.
  unfold stop_programming_action, executor_shutdown, pool_futures. simpl.
  destruct (executor self) eqn:E; simpl; rewrite ?E; done.
Qed.




(** **** The results *)










(** *** Whole sessions *)

Lemma jobs_of_same_pool p self self' :
  pool_futures self' = pool_futures self → jobs_of p self' = jobs_of p self.
Proof. unfold jobs_of. by intros ->. Qed.

Lemma step_frame fqbn st ev :
  mode_var (step fqbn st ev).1 = mode_var st.1 ∧
  programmed_ports st.2 ⊆ programmed_ports (step fqbn st ev).2 ∧
  (∀ p, p ∈ known_ports st.2 →
        (∀ infos, ev = PollTick (inr infos) → lists p infos) →
        p ∈ known_ports (step fqbn st ev).2) ∧
  (∀ p, p ∈ known_ports st.2 ∨ (mode_var st.1 = "Single"%string ∧ p ∈ programmed_ports st.2) →
        length (jobs_of p (step fqbn st ev).1) = length (jobs_of p st.1)).
Proof.
  destruct ev; unfold step; cbn [fst snd].
  - destruct (stop_programming st.1); [done|].
    destruct (tick_frame fqbn scan st) as (Hm & _ & _ & Hp & Hk & Hj).
    split_and!; try done.
    + intros p Hp' Hl. apply Hk; [done|]. intros infos ->. by apply Hl.
    + intros p Hp'. by rewrite Hj.
  - destruct (finish_future_frame future tool t0 st.1) as (Hm & _ & _ & _ & _ & _ & _ & Hj).
    done.
  - destruct (process_next_result_frame st.1) as (He & Hm & _).
    split_and!; try done. intros p _.
    by rewrite (jobs_of_same_pool _ _ _ (pool_futures_executor _ _ He)).
  - destruct (refresh_ports_frame ports_info st.1) as (He & Hm & _).
    split_and!; try done. intros p _.
    by rewrite (jobs_of_same_pool _ _ _ (pool_futures_executor _ _ He)).
  - destruct (stop_programming_action_frame st.1) as (Hp & Hm & _).
    split_and!; try done. intros p _. by rewrite (jobs_of_same_pool _ _ _ Hp).
Qed.



(** A port that the loop knows is not dispatched while it stays connected. *)
Lemma run_known fqbn p evs : ∀ st,
  p ∈ known_ports st.2 → stays_connected p evs →
  length (jobs_of p (run fqbn evs st).1) = length (jobs_of p st.1).
Proof.
  induction evs as [|ev evs IH]; intros st Hk Hc; [done|]. simpl.
  destruct (step_frame fqbn st ev) as (_ & _ & Hk' & Hj).
  rewrite IH.
  - apply Hj. by left.
  - apply Hk'; [done|]. intros infos ->. apply Hc. by left.
  - intros infos Hin. apply Hc. by right.
Qed.


Ltac by_compute := apply (bool_decide_unpack _); vm_compute; exact I.

(** ** The claims about the dispatch loop *)

Lemma dispatch_port_open fqbn new_ports port_info st :
  pool_open st.1 →
  (dispatch_port fqbn new_ports port_info st).2 = None ∧
  pool_open (dispatch_port fqbn new_ports port_info st).1.1.
Proof.
  destruct st as [self loc]. intros (ex & Hex & Hopen). simpl in Hex.
  unfold dispatch_port, pool_open.
  destruct (_ && _); [by eauto|]. destruct (_ && _); [|by eauto].
  destruct (check_hub_capacity _ _ _); [|by eauto].
  unfold executor_submit. simpl. rewrite Hex, Hopen. simpl. eauto.
Qed.

Lemma dispatch_ports_open fqbn new_ports infos : ∀ st,
  pool_open st.1 → (dispatch_ports fqbn new_ports infos st).2 = None.
Proof.
  induction infos as [|port_info rest IH]; intros st Hopen; [done|]. simpl.
  destruct (dispatch_port_open fqbn new_ports port_info st Hopen) as [Hnone Hopen'].
  destruct (dispatch_port _ _ _ _) as [st' [e|]]; [done|]. by apply IH.
Qed.

(** With an open pool an iteration whose scan succeeds ends with
    [known_ports = current_ports]. *)
Lemma tick_known_ports fqbn infos st :
  pool_open st.1 →
  known_ports (tick fqbn (inr infos) st).2 = list_to_set (info_port <$> infos).
Proof.
  intros (ex & Hex & Hopen). unfold tick.
  destruct (drop_disconnected_all_frame
              (elements (known_ports st.2 ∖ list_to_set (info_port <$> infos))) st)
    as ((_ & _ & _ & He1 & _ & _) & _).
  set (st1 := foldl _ st _) in *.
  pose proof (dispatch_ports_open fqbn
    (list_to_set (info_port <$> infos) ∖ known_ports st.2) infos st1) as Hnone.
  destruct (dispatch_ports _ _ _ _) as [[self loc] [e|]].
  { discriminate Hnone. exists ex. by rewrite He1. }
  destruct (foldl _ (self, programmed_ports loc, []) _) as [[self' programmed] completed].
  by destruct (foldl _ _ completed).
Qed.

(** C5: a port whose admission was refused is NOT admitted on a later poll
    tick while it stays connected.  An iteration of the loop that scans a
    port, whether it admits or refuses it, ends with the port in
    [known_ports]; from then on, whatever happens (workers finishing,
    results aggregated, slots released, further iterations), as long as
    every successful scan lists the port, no job is submitted for it: the
    number of jobs the pool has for the port never changes.  A refused port
    therefore stays without a job until it is unplugged and plugged in
    again. *)
Theorem seen_port_is_never_admitted_later (fqbn p : string) (infos : list PortInfo)
    (evs : list event) (st : MCUProgrammerApp * Locals) :
  pool_open st.1 →
  lists p infos →
  stays_connected p evs →
  let st' := tick fqbn (inr infos) st in
  length (jobs_of p (run fqbn evs st').1) = length (jobs_of p st'.1).
Proof.
  intros Hopen Hlists Hconn st'. apply run_known; [|done].
  subst st'. rewrite tick_known_ports by done.
  apply elem_of_list_to_set. exact Hlists.
Qed.

Lemma later_events_connected : stays_connected "COM4" later_events.
Proof.
  intros infos Hin. unfold later_events in Hin.
  rewrite !elem_of_cons, elem_of_nil in Hin.
  destruct Hin as [H|[H|[H|[H|[H|[]]]]]]; try discriminate H;
    injection H as ->; unfold lists; by_compute.
Qed.

Lemma seen_port_is_never_admitted_later_witness :
  let session := one_slot_session "Continuous" in
  let refused := tick uno (inr [port_A; port_B]) session in
  let later := run uno later_events refused in
  (* the first tick admits COM3 and refuses COM4 *)
  jobs_of "COM3" refused.1 = [mkFuture uno "COM3" "1-2" None] ∧
  jobs_of "COM4" refused.1 = [] ∧
  last (terminal refused.1) = Some (WARNING, MsgDelaying "COM4" "1-2") ∧
  (* COM3's job finishes and its slot is released *)
  hub_load_balancing later.2 !! "1-2"%string = Some ∅ ∧
  check_hub_capacity later.1 "1-2" (hub_load_balancing later.2) = true ∧
  (* and COM4, still connected, has never been admitted *)
  length (jobs_of "COM4" later.1) = 0%nat.
Proof.
  cbv zeta.
  pose proof (seen_port_is_never_admitted_later uno "COM4" [port_A; port_B] later_events
                (one_slot_session "Continuous")) as Hnever.
  cbv zeta in Hnever. rewrite Hnever; clear Hnever.
  - vm_compute. repeat split.
  - exists (mkExecutor 4 [] false). split; [vm_compute; reflexivity|reflexivity].
  - unfold lists. by_compute.
  - apply later_events_connected.
Defined.







(** ** Nested hubs *)
















(** ** Single-port mode *)






